(** * hal9000-actions: the response parser, the workspace mutator, the
    diff builder, the validator and the attempt loop

    A shallow embedding of [scripts/apply_changes.py] and of the attempt loop
    of [scripts/run_hal9000.py] / [scripts/execute_plan.py].

    Text is a [string] of 8-bit characters, each read as the code point of
    the same number (Latin-1).  The character classes of Python's [re] and
    [str] methods are written out for these 256 code points; text with other
    code points is outside the model. *)

From Stdlib Require Import ZArith Ascii String List Bool Lia.
From stdpp Require Import base option list gmap strings.

Local Open Scope string_scope.
Local Open Scope list_scope.
#[local] Arguments String.append !s1 s2 : simpl nomatch.

(** ** Characters *)

Module Chars.

Definition LF : ascii := "010"%char.
Definition backtick : ascii := "096"%char.
Definition dquote : ascii := "034"%char.
Definition backslash : ascii := "092"%char.

Definition code (a : ascii) : nat := nat_of_ascii a.

Definition between (lo hi : nat) (a : ascii) : bool :=
  (lo <=? code a)%nat && (code a <=? hi)%nat.

(** [\s] of a [str] pattern and [str.isspace]: 9-13, 28-32, 0x85, 0xA0. *)
Definition is_space (a : ascii) : bool :=
  between 9 13 a || between 28 32 a || (code a =? 133)%nat || (code a =? 160)%nat.

(** [\w] of a [str] pattern: [str.isalnum] or the underscore. *)
Definition is_word (a : ascii) : bool :=
  between 48 57 a || between 65 90 a || (code a =? 95)%nat || between 97 122 a
  || (code a =? 170)%nat || between 178 179 a || (code a =? 181)%nat
  || between 185 186 a || between 188 190 a || between 192 214 a
  || between 216 246 a || between 248 255 a.

(** [.] under [re.DOTALL]. *)
Definition any (_ : ascii) : bool := true.

Definition is_not (c : ascii) (a : ascii) : bool := negb (Ascii.eqb a c).

(** [[^`]], [[^\n`]] (the same class as [[^`\n]]). *)
Definition not_backtick : ascii -> bool := is_not backtick.
Definition not_lf_backtick (a : ascii) : bool := is_not LF a && is_not backtick a.

(** [str.lower] on one character: A-Z, and 0xC0-0xDE without 0xD7. *)
Definition lower (a : ascii) : ascii :=
  if between 65 90 a || (between 192 222 a && negb (code a =? 215)%nat)
  then ascii_of_nat (code a + 32) else a.

(** The whitespace [json] skips between tokens: space, tab, LF, CR. *)
Definition is_json_ws (a : ascii) : bool :=
  (code a =? 32)%nat || (code a =? 9)%nat || (code a =? 10)%nat || (code a =? 13)%nat.

Definition is_digit (a : ascii) : bool := between 48 57 a.

End Chars.

(** ** Strings: the [str] methods the scripts call *)

Module Str.

Definition nl : string := String Chars.LF EmptyString.

Fixpoint lower (s : string) : string :=
  match s with
  | EmptyString => EmptyString
  | String a s' => String (Chars.lower a) (lower s')
  end.

(** [s.startswith(p)], and what is left of [s] after [p]. *)
Fixpoint strip_prefix (ci : bool) (p s : string) : option string :=
  match p, s with
  | EmptyString, _ => Some s
  | String a p', String b s' =>
      if (if ci then Ascii.eqb (Chars.lower a) (Chars.lower b) else Ascii.eqb a b)
      then strip_prefix ci p' s' else None
  | String _ _, EmptyString => None
  end.

Fixpoint rev_acc (s acc : string) : string :=
  match s with
  | EmptyString => acc
  | String a s' => rev_acc s' (String a acc)
  end.
Definition rev (s : string) : string := rev_acc s EmptyString.

Fixpoint lstrip (s : string) : string :=
  match s with
  | String a s' => if Chars.is_space a then lstrip s' else s
  | EmptyString => EmptyString
  end.
Definition rstrip (s : string) : string := rev (lstrip (rev s)).
(** [s.strip()] *)
Definition strip (s : string) : string := rstrip (lstrip s).

(** [s.endswith("\n")] and [s[:-1]] *)
Fixpoint ends_with_nl (s : string) : bool :=
  match s with
  | EmptyString => false
  | String a EmptyString => Ascii.eqb a Chars.LF
  | String _ s' => ends_with_nl s'
  end.
Fixpoint drop_last (s : string) : string :=
  match s with
  | EmptyString => EmptyString
  | String _ EmptyString => EmptyString
  | String a s' => String a (drop_last s')
  end.

(** [s[:n]] *)
Fixpoint take (n : nat) (s : string) : string :=
  match n, s with
  | S n', String a s' => String a (take n' s')
  | _, _ => EmptyString
  end.

(** [s.split(sep)] for a one-character separator. *)
Fixpoint split_on (sep : ascii) (cur : string) (s : string) : list string :=
  match s with
  | EmptyString => [rev cur]
  | String a s' =>
      if Ascii.eqb a sep then rev cur :: split_on sep EmptyString s'
      else split_on sep (String a cur) s'
  end.
Definition split (sep : ascii) (s : string) : list string := split_on sep EmptyString s.

End Str.

(** ** Regular expressions: the part of Python's [re] the scripts use

    A backtracking matcher in continuation-passing style, with the priorities
    of [re]: a greedy repetition tries the longest run first, a lazy one the
    shortest, an alternation its left branch first.  Every repetition in the
    scripts' patterns is over a character class. *)

Module Re.

Inductive regex : Type :=
  | Lit (l : string)                 (* literal text *)
  | Star (p : ascii -> bool)         (* [p*]  *)
  | Plus (p : ascii -> bool)         (* [p+]  *)
  | Lazy (p : ascii -> bool)         (* [p*?] *)
  | Opt (r : regex)                  (* [(?:r)?] *)
  | Seq (r1 r2 : regex)
  | Alt (r1 r2 : regex)
  | Group (n : nat) (r : regex)      (* capturing group number n *)
  | Ahead (r : regex)                (* [(?=r)] *)
  | Eos.                             (* [$] without re.MULTILINE *)

(** The groups that took part in a match, innermost binding first. *)
Definition caps : Type := list (nat * string).

Fixpoint group (n : nat) (c : caps) : option string :=
  match c with
  | [] => None
  | (m, s) :: c' => if (m =? n)%nat then Some s else group n c'
  end.

Section Matcher.
Context {R : Type}.

Definition or_else (x y : option R) : option R :=
  match x with Some _ => x | None => y end.

Fixpoint star (p : ascii -> bool) (s : string) (k : string -> option R) : option R :=
  match s with
  | String a s' => if p a then or_else (star p s' k) (k s) else k s
  | EmptyString => k s
  end.

Fixpoint lazy (p : ascii -> bool) (s : string) (k : string -> option R) : option R :=
  or_else (k s)
    match s with
    | String a s' => if p a then lazy p s' k else None
    | EmptyString => None
    end.

Definition plus (p : ascii -> bool) (s : string) (k : string -> option R) : option R :=
  match s with
  | String a s' => if p a then star p s' k else None
  | EmptyString => None
  end.
End Matcher.

(** The text consumed between [s] and its suffix [s']. *)
Definition consumed (s s' : string) : string :=
  Str.take (String.length s - String.length s') s.

Definition at_end (s : string) : bool :=
  match s with
  | EmptyString => true
  | String a EmptyString => Ascii.eqb a Chars.LF
  | _ => false
  end.

(** [ci] is [re.IGNORECASE]; it only changes how literal text compares. *)
Fixpoint run {R : Type} (ci : bool) (r : regex) (s : string) (c : caps)
    (k : string -> caps -> option R) : option R :=
  match r with
  | Lit l => match Str.strip_prefix ci l s with Some s' => k s' c | None => None end
  | Star p => star p s (fun s' => k s' c)
  | Plus p => plus p s (fun s' => k s' c)
  | Lazy p => lazy p s (fun s' => k s' c)
  | Opt r1 => or_else (run ci r1 s c k) (k s c)
  | Seq r1 r2 => run ci r1 s c (fun s' c' => run ci r2 s' c' k)
  | Alt r1 r2 => or_else (run ci r1 s c k) (run ci r2 s c k)
  | Group n r1 => run ci r1 s c (fun s' c' => k s' ((n, consumed s s') :: c'))
  | Ahead r1 =>
      match run ci r1 s c (fun _ _ => Some tt) with
      | Some _ => k s c
      | None => None
      end
  | Eos => if at_end s then k s c else None
  end.

(** A match anchored at the start of [s]: its groups and the text after it. *)
Definition match_here (ci : bool) (r : regex) (s : string) : option (caps * string) :=
  run ci r s [] (fun s' c => Some (c, s')).

(** [re.search]: the leftmost match. *)
Fixpoint search (ci : bool) (r : regex) (s : string) : option (caps * string) :=
  match match_here ci r s with
  | Some m => Some m
  | None =>
      match s with
      | String _ s' => search ci r s'
      | EmptyString => None
      end
  end.

(** [pattern.finditer]: the successive matches, each search starting where
    the match before it ended.  The patterns of the scripts never match the
    empty text; after an empty match the search here moves on by one
    character. *)
Fixpoint finditer_aux (fuel : nat) (ci : bool) (r : regex) (s : string) : list caps :=
  match fuel with
  | O => []
  | S fuel' =>
      match search ci r s with
      | None => []
      | Some (c, rest) =>
          c :: (if (String.length rest <? String.length s)%nat
                then finditer_aux fuel' ci r rest
                else match rest with
                     | String _ rest' => finditer_aux fuel' ci r rest'
                     | EmptyString => []
                     end)
      end
  end.
Definition finditer (ci : bool) (r : regex) (s : string) : list caps :=
  finditer_aux (S (String.length s)) ci r s.

Fixpoint cat (rs : list regex) : regex :=
  match rs with
  | [] => Lit EmptyString
  | [r] => r
  | r :: rs' => Seq r (cat rs')
  end.

End Re.

(** ** Python values: what [json.loads] returns and the scripts pass around *)

Module Py.

(** A [dict] is an association list with distinct keys in insertion order. *)
#[warnings="-register-all"]
Inductive value : Type :=
  | JNull
  | JBool (b : bool)
  | JInt (z : Z)
  | JFloat (lexeme : string)
  | JStr (s : string)
  | JArr (l : list value)
  | JObj (d : list (string * value)).

Definition dict : Type := list (string * value).

(** [d.get(k)] *)
Fixpoint dict_get (k : string) (d : dict) : option value :=
  match d with
  | [] => None
  | (k', v) :: d' => if String.eqb k' k then Some v else dict_get k d'
  end.

(** [d[k] = v]: a key already present keeps its place. *)
Fixpoint dict_set (k : string) (v : value) (d : dict) : dict :=
  match d with
  | [] => [(k, v)]
  | (k', v') :: d' =>
      if String.eqb k' k then (k', v) :: d' else (k', v') :: dict_set k v d'
  end.

(** [d.get(k, default)] *)
Definition dict_get_default (k : string) (default : value) (d : dict) : value :=
  match dict_get k d with Some v => v | None => default end.

(** [k in d] *)
Definition dict_has (k : string) (d : dict) : bool :=
  match dict_get k d with Some _ => true | None => false end.

Fixpoint all_zero_mantissa (s : string) : bool :=
  match s with
  | EmptyString => true
  | String a s' =>
      if Ascii.eqb a "e"%char || Ascii.eqb a "E"%char then true
      else if Chars.between 49 57 a then false
      else all_zero_mantissa s'
  end.

(** [bool(v)].  A float is false when its mantissa is zero (underflow to
    zero of a nonzero literal is not modelled). *)
Definition truthy (v : value) : bool :=
  match v with
  | JNull => false
  | JBool b => b
  | JInt z => negb (z =? 0)%Z
  | JFloat l => negb (all_zero_mantissa l) || String.eqb l "NaN"
               || String.eqb l "Infinity" || String.eqb l "-Infinity"
  | JStr s => negb (String.eqb s EmptyString)
  | JArr l => match l with [] => false | _ => true end
  | JObj d => match d with [] => false | _ => true end
  end.

(** The exceptions that can leave the modelled code. *)
Inductive exn : Type :=
  | KeyError (k : string)
  | TypeError
  | IsADirectoryError
  | NotADirectoryError
  | FileExistsError
  | FileNotFoundError
  | ExternalError (msg : string).

Inductive result (A : Type) : Type :=
  | Ok (a : A)
  | Raise (e : exn).
Arguments Ok {A} a.
Arguments Raise {A} e.

(** [obj[k]] for a string key: a [dict] looks the key up, anything else
    refuses a string index. *)
Definition getitem (obj : value) (k : string) : result value :=
  match obj with
  | JObj d => match dict_get k d with Some v => Ok v | None => Raise (KeyError k) end
  | _ => Raise TypeError
  end.

(** [obj.get(k, default)]; only a [dict] has the method (AttributeError is
    folded into [TypeError]). *)
Definition get (obj : value) (k : string) (default : value) : result value :=
  match obj with
  | JObj d => Ok (dict_get_default k default d)
  | _ => Raise TypeError
  end.

End Py.

(** ** [json.loads] *)

Module Json.
Import Py.

Fixpoint skip_ws (s : string) : string :=
  match s with
  | String a s' => if Chars.is_json_ws a then skip_ws s' else s
  | EmptyString => EmptyString
  end.

Definition hex_digit (a : ascii) : option nat :=
  if Chars.between 48 57 a then Some (Chars.code a - 48)
  else if Chars.between 97 102 a then Some (Chars.code a - 87)
  else if Chars.between 65 70 a then Some (Chars.code a - 55)
  else None.

Definition unescape (a : ascii) : option ascii :=
  if Ascii.eqb a Chars.dquote then Some Chars.dquote
  else if Ascii.eqb a Chars.backslash then Some Chars.backslash
  else if Ascii.eqb a "/"%char then Some "/"%char
  else if Ascii.eqb a "b"%char then Some "008"%char
  else if Ascii.eqb a "f"%char then Some "012"%char
  else if Ascii.eqb a "n"%char then Some "010"%char
  else if Ascii.eqb a "r"%char then Some "013"%char
  else if Ascii.eqb a "t"%char then Some "009"%char
  else None.

(** The text of a string after its opening quote (strict mode: no raw
    control character).  [acc] holds the decoded characters, last first.  An
    escape for a code point above 255 is outside the model and answers
    [None]. *)
Fixpoint scan_string (s : string) (acc : string) : option (string * string) :=
  match s with
  | EmptyString => None
  | String a s' =>
      if Ascii.eqb a Chars.dquote then Some (Str.rev acc, s')
      else if Ascii.eqb a Chars.backslash then
        match s' with
        | String e s'' =>
            if Ascii.eqb e "u"%char then
              match s'' with
              | String h1 (String h2 (String h3 (String h4 rest))) =>
                  match hex_digit h1, hex_digit h2, hex_digit h3, hex_digit h4 with
                  | Some d1, Some d2, Some d3, Some d4 =>
                      let n := (((d1 * 16 + d2) * 16 + d3) * 16 + d4)%nat in
                      if (n <? 256)%nat then scan_string rest (String (ascii_of_nat n) acc)
                      else None
                  | _, _, _, _ => None
                  end
              | _ => None
              end
            else
              match unescape e with
              | Some ch => scan_string s'' (String ch acc)
              | None => None
              end
        | EmptyString => None
        end
      else if (Chars.code a <? 32)%nat then None
      else scan_string s' (String a acc)
  end.

(** A maximal run of decimal digits: the run and what follows it. *)
Fixpoint digits (s : string) : string * string :=
  match s with
  | String a s' =>
      if Chars.is_digit a then let '(d, r) := digits s' in (String a d, r)
      else (EmptyString, s)
  | EmptyString => (EmptyString, EmptyString)
  end.

Fixpoint digits_value (d : string) (acc : Z) : Z :=
  match d with
  | String a d' => digits_value d' (acc * 10 + Z.of_nat (Chars.code a - 48))%Z
  | EmptyString => acc
  end.

(** The integer part, an optional minus sign and then 0 or a run of digits
    that does not start with 0: its text, and the rest. *)
Definition int_part (s : string) : option (string * string) :=
  let '(sign, s1) :=
    match s with
    | String a s' => if Ascii.eqb a "-"%char then ("-", s') else (EmptyString, s)
    | EmptyString => (EmptyString, s)
    end in
  match s1 with
  | String a s2 =>
      if Ascii.eqb a "0"%char then Some (sign +:+ "0", s2)
      else if Chars.is_digit a then
        let '(d, r) := digits s2 in Some (sign +:+ String a d, r)
      else None
  | EmptyString => None
  end.

(** The optional fraction: a dot and at least one digit. *)
Definition frac_part (s : string) : string * string :=
  match s with
  | String a s' =>
      if Ascii.eqb a "."%char then
        match digits s' with
        | (EmptyString, _) => (EmptyString, s)
        | (d, r) => (String a d, r)
        end
      else (EmptyString, s)
  | EmptyString => (EmptyString, s)
  end.

(** The optional exponent: e or E, an optional sign, at least one digit. *)
Definition exp_part (s : string) : string * string :=
  match s with
  | String a s' =>
      if Ascii.eqb a "e"%char || Ascii.eqb a "E"%char then
        let '(sg, s1) :=
          match s' with
          | String b s'' =>
              if Ascii.eqb b "-"%char || Ascii.eqb b "+"%char
              then (String b EmptyString, s'') else (EmptyString, s')
          | EmptyString => (EmptyString, s')
          end in
        match digits s1 with
        | (EmptyString, _) => (EmptyString, s)
        | (d, r) => (String a (sg +:+ d), r)
        end
      else (EmptyString, s)
  | EmptyString => (EmptyString, s)
  end.

Definition int_value (lexeme : string) : Z :=
  match lexeme with
  | String a d => if Ascii.eqb a "-"%char then (- digits_value d 0)%Z
                  else digits_value lexeme 0
  | EmptyString => 0%Z
  end.

Definition number (s : string) : option (value * string) :=
  match int_part s with
  | None => None
  | Some (i, s1) =>
      let '(f, s2) := frac_part s1 in
      let '(e, s3) := exp_part s2 in
      match f, e with
      | EmptyString, EmptyString => Some (JInt (int_value i), s3)
      | _, _ => Some (JFloat (i +:+ f +:+ e), s3)
      end
  end.

Definition keyword (w : string) (v : value) (s : string) : option (value * string) :=
  match Str.strip_prefix false w s with
  | Some r => Some (v, r)
  | None => None
  end.

Definition first_of {A : Type} (x y : option A) : option A :=
  match x with Some _ => x | None => y end.

(** The scanner: one value at the head of [s] and the text after it.  Each
    call on a nested value spends one unit of [fuel]; the length of the text
    is always enough. *)
Fixpoint scan_once (fuel : nat) (s : string) : option (value * string) :=
  match fuel with
  | O => None
  | S fuel' =>
      match s with
      | EmptyString => None
      | String a s' =>
          if Ascii.eqb a Chars.dquote then
            match scan_string s' EmptyString with
            | Some (str, r) => Some (JStr str, r)
            | None => None
            end
          else if Ascii.eqb a "{"%char then
            match skip_ws s' with
            | String b r =>
                if Ascii.eqb b "}"%char then Some (JObj [], r)
                else members fuel' (String b r) []
            | EmptyString => None
            end
          else if Ascii.eqb a "["%char then
            match skip_ws s' with
            | String b r =>
                if Ascii.eqb b "]"%char then Some (JArr [], r)
                else elements fuel' (String b r) []
            | EmptyString => None
            end
          else
            first_of (keyword "null" JNull s)
            (first_of (keyword "true" (JBool true) s)
            (first_of (keyword "false" (JBool false) s)
            (first_of (number s)
            (first_of (keyword "NaN" (JFloat "NaN") s)
            (first_of (keyword "Infinity" (JFloat "Infinity") s)
                      (keyword "-Infinity" (JFloat "-Infinity") s))))))
      end
  end
(** The members of an object from a key on; [acc] is the dict so far. *)
with members (fuel : nat) (s : string) (acc : dict) : option (value * string) :=
  match fuel with
  | O => None
  | S fuel' =>
      match s with
      | String q s0 =>
          if Ascii.eqb q Chars.dquote then
            match scan_string s0 EmptyString with
            | Some (key, s1) =>
                match skip_ws s1 with
                | String c s2 =>
                    if Ascii.eqb c ":"%char then
                      match scan_once fuel' (skip_ws s2) with
                      | Some (v, s3) =>
                          let acc' := dict_set key v acc in
                          match skip_ws s3 with
                          | String e s4 =>
                              if Ascii.eqb e "}"%char then Some (JObj acc', s4)
                              else if Ascii.eqb e ","%char
                              then members fuel' (skip_ws s4) acc'
                              else None
                          | EmptyString => None
                          end
                      | None => None
                      end
                    else None
                | EmptyString => None
                end
            | None => None
            end
          else None
      | EmptyString => None
      end
  end
(** The elements of an array from a value on; [acc] holds them last first. *)
with elements (fuel : nat) (s : string) (acc : list value) : option (value * string) :=
  match fuel with
  | O => None
  | S fuel' =>
      match scan_once fuel' s with
      | Some (v, s1) =>
          match skip_ws s1 with
          | String e s2 =>
              if Ascii.eqb e "]"%char then Some (JArr (List.rev (v :: acc)), s2)
              else if Ascii.eqb e ","%char
              then elements fuel' (skip_ws s2) (v :: acc)
              else None
          | EmptyString => None
          end
      | None => None
      end
  end.

(** [json.loads(s)]: [None] stands for [json.JSONDecodeError].  The limits
    of the interpreter (digits of an integer, depth of nesting) are not
    modelled. *)
Definition loads (s : string) : option value :=
  match scan_once (S (String.length s)) (skip_ws s) with
  | Some (v, r) =>
      match skip_ws r with
      | EmptyString => Some v
      | String _ _ => None
      end
  | None => None
  end.

End Json.

(** ** [apply_changes.py]: [parse_model_response] *)

Module Parser.
Import Py Re.

(** One entry of [result["changes"]] as the markdown branches build it. *)
Record FileEdit : Type := mkEdit {
  path : string;
  action : string;
  content : string
}.

Definition edit_value (e : FileEdit) : value :=
  JObj [("path", JStr (path e)); ("action", JStr (action e));
        ("content", JStr (content e))].

Definition result_value (explanation : string) (changes : list FileEdit) : value :=
  JObj [("explanation", JStr explanation);
        ("changes", JArr (map edit_value changes))].

Definition ws : regex := Star Chars.is_space.
Definition fence : string := "```".

(** The pattern of the [json] fence, under [re.DOTALL]: the fence with its
    tag, [\s*\n], the lazy group 1, a line feed and the closing fence. *)
Definition json_pattern : regex :=
  cat [Lit "```json"; ws; Lit Str.nl; Group 1 (Lazy Chars.any);
       Lit (Str.nl +:+ fence)].

(** [##\s*Explanation\s*\n], the lazy group 1, and the look-ahead for
    [##\s*Changes], [##\s*File:] or the end; [re.DOTALL | re.IGNORECASE]. *)
Definition explanation_pattern : regex :=
  cat [Lit "##"; ws; Lit "Explanation"; ws; Lit Str.nl; Group 1 (Lazy Chars.any);
       Ahead (Alt (cat [Lit "##"; ws; Lit "Changes"])
             (Alt (cat [Lit "##"; ws; Lit "File:"]) Eos))].

(** [###?] *)
Definition hashes : regex := Seq (Lit "##") (Opt (Lit "#")).

(** The code block that ends a section: the fence, [\w*\s*\n], the lazy
    group 3 and the next fence. *)
Definition code_block : regex :=
  cat [Lit fence; Star Chars.is_word; ws; Lit Str.nl; Group 3 (Lazy Chars.any);
       Lit fence].

(** [file_pattern]: a heading with the path between backticks (group 1), an
    optional action heading (group 2) and the code block; [re.DOTALL]. *)
Definition file_pattern : regex :=
  cat [hashes; ws; Lit "File:"; ws; Lit "`"; Group 1 (Plus Chars.not_backtick);
       Lit "`"; ws; Lit Str.nl;
       Opt (cat [hashes; ws; Lit "Action:"; ws; Group 2 (Plus Chars.is_word); ws;
                 Lit Str.nl]);
       code_block].

(** [alt_pattern]: the heading marks are optional and the path is bare. *)
Definition alt_pattern : regex :=
  cat [Opt (Seq hashes ws); Lit "File:"; ws; Group 1 (Plus Chars.not_lf_backtick);
       ws; Lit Str.nl;
       Opt (cat [Lit "Action:"; ws; Group 2 (Plus Chars.is_word); ws; Lit Str.nl]);
       code_block].

(** [delete_pattern]: a file heading, backticks optional, followed by an
    action heading that says delete; [re.IGNORECASE]. *)
Definition delete_pattern : regex :=
  cat [hashes; ws; Lit "File:"; ws; Opt (Lit "`");
       Group 1 (Plus Chars.not_lf_backtick); Opt (Lit "`"); ws; Lit Str.nl;
       hashes; ws; Lit "Action:"; ws; Lit "delete"].

(** [match.group(n)] of a group that took part in the match. *)
Definition grp (n : nat) (c : caps) : string := default EmptyString (group n c).

(** The body of the two loops over content-bearing sections. *)
Definition section_edit (strip_path : bool) (c : caps) : FileEdit :=
  let path := if strip_path then Str.strip (grp 1 c) else grp 1 c in
  let action := match group 2 c with
                | Some a => if String.eqb a EmptyString then "modify" else a
                | None => "modify"
                end in
  let content := grp 3 c in
  let content := if Str.ends_with_nl content then Str.drop_last content else content in
  mkEdit path (Str.lower action) content.

(** The body of the loop over delete headings. *)
Definition delete_step (changes : list FileEdit) (c : caps) : list FileEdit :=
  let p := Str.strip (grp 1 c) in
  let existing_paths := map path changes in
  if bool_decide (p ∈ existing_paths) then changes
  else changes ++ [mkEdit p "delete" EmptyString].

Definition parse_explanation (response_text : string) : string :=
  match search true explanation_pattern response_text with
  | Some (c, _) => Str.strip (grp 1 c)
  | None => EmptyString
  end.

Definition file_sections (response_text : string) : list FileEdit :=
  map (section_edit false) (finditer false file_pattern response_text).

Definition alt_sections (response_text : string) : list FileEdit :=
  map (section_edit true) (finditer false alt_pattern response_text).

Definition content_sections (response_text : string) : list FileEdit :=
  match file_sections response_text with
  | [] => alt_sections response_text
  | changes => changes
  end.

Definition delete_sections (response_text : string) (changes : list FileEdit)
    : list FileEdit :=
  fold_left delete_step (finditer true delete_pattern response_text) changes.

(** The markdown branch: everything after the [json] attempt. *)
Definition parse_markdown (response_text : string) : string * list FileEdit :=
  (parse_explanation response_text,
   delete_sections response_text (content_sections response_text)).

(** The [json] attempt: the first fenced block, when it decodes to a dict
    that has the key [changes]. *)
Definition parse_json_block (response_text : string) : option value :=
  match search false json_pattern response_text with
  | Some (c, _) =>
      match Json.loads (grp 1 c) with
      | Some (JObj d) => if dict_has "changes" d then Some (JObj d) else None
      | _ => None
      end
  | None => None
  end.

Definition parse_model_response (response_text : string) : value :=
  match parse_json_block response_text with
  | Some parsed => parsed
  | None =>
      let '(explanation, changes) := parse_markdown response_text in
      result_value explanation changes
  end.

End Parser.

(** ** The workspace: [pathlib] paths over a tree of files and directories

    A path is kept as [pathlib] keeps it (segments with [..] left in place).
    The file system maps resolved absolute paths to nodes; the root directory
    is always there.  Paths are resolved as the kernel resolves them in a
    tree without symbolic links.  Permissions are not modelled. *)

Module Fs.
Import Py.

Inductive node : Type :=
  | File (content : string)
  | Dir.

Record ppath : Type := mkPath {
  absolute : bool;
  segs : list string
}.

Record world : Type := mkWorld {
  cwd : list string;
  tree : gmap (list string) node
}.

Definition is_segment (s : string) : bool :=
  negb (String.eqb s EmptyString) && negb (String.eqb s ".").

(** [Path(s)] *)
Definition of_string (s : string) : ppath :=
  {| absolute := match s with
                 | String a _ => Ascii.eqb a "/"%char
                 | EmptyString => false
                 end;
     segs := List.filter is_segment (Str.split "/"%char s) |}.

(** [a / b]: an absolute right operand replaces the left one. *)
Definition joinpath (a b : ppath) : ppath :=
  if absolute b then b
  else {| absolute := absolute a; segs := segs a ++ segs b |}.

(** [root / path] for a path that came out of a [dict]. *)
Definition join_value (root : ppath) (path : value) : result ppath :=
  match path with
  | JStr s => Ok (joinpath root (of_string s))
  | _ => Raise TypeError
  end.

(** [p.parent] *)
Definition parent (p : ppath) : ppath :=
  {| absolute := absolute p; segs := removelast (segs p) |}.

(** The path made of the first [n] segments of [p]. *)
Definition ancestor (n : nat) (p : ppath) : ppath :=
  {| absolute := absolute p; segs := firstn n (segs p) |}.

Definition node_at (w : world) (t : list string) : option node :=
  match t with
  | [] => Some Dir
  | _ => tree w !! t
  end.

(** Walking the segments [l] from the directory [at_]: a [..] segment leaves
    the directory it is met in, which has to be there. *)
Fixpoint walk_from (w : world) (at_ : list string) (l : list string)
    : result (list string) :=
  match l with
  | [] => Ok at_
  | seg :: rest =>
      if String.eqb seg ".." then
        match node_at w at_ with
        | Some Dir => walk_from w (removelast at_) rest
        | Some (File _) => Raise NotADirectoryError
        | None => Raise FileNotFoundError
        end
      else walk_from w (at_ ++ [seg]) rest
  end.

(** Where the kernel ends up for [p]. *)
Definition resolve (w : world) (p : ppath) : result (list string) :=
  walk_from w (if absolute p then [] else cwd w) (segs p).

(** What is at [p], as [os.stat] sees it. *)
Definition stat (w : world) (p : ppath) : result node :=
  match resolve w p with
  | Ok t => match node_at w t with
            | Some n => Ok n
            | None => Raise FileNotFoundError
            end
  | Raise e => Raise e
  end.

Definition set_node (t : list string) (n : node) (w : world) : world :=
  {| cwd := cwd w; tree := <[t := n]> (tree w) |}.

Definition del_node (t : list string) (w : world) : world :=
  {| cwd := cwd w; tree := delete t (tree w) |}.

(** Code that reads and writes the workspace and may raise. *)
Definition M (A : Type) : Type := world -> result A * world.

Definition ret {A : Type} (a : A) : M A := fun w => (Ok a, w).
Definition raise {A : Type} (e : exn) : M A := fun w => (Raise e, w).
Definition lift {A : Type} (r : result A) : M A := fun w => (r, w).
Definition bind {A B : Type} (m : M A) (f : A -> M B) : M B :=
  fun w => match m w with
           | (Ok a, w') => f a w'
           | (Raise e, w') => (Raise e, w')
           end.

Declare Scope fs_scope.
Delimit Scope fs_scope with fs.
Notation "'let!' x ':=' m 'in' k" := (bind m (fun x => k))
  (at level 10, x name, m at level 100, k at level 200) : fs_scope.
Local Open Scope fs_scope.

(** [p.exists()] *)
Definition exists_ (p : ppath) : M bool :=
  fun w => (Ok match stat w p with Ok _ => true | Raise _ => false end, w).

(** [p.is_dir()] *)
Definition is_dir (p : ppath) : M bool :=
  fun w => (Ok match stat w p with Ok Dir => true | _ => false end, w).

(** Making the node [n] at [t], which is not there yet: the directory it
    goes into has to be there. *)
Definition create_at (t : list string) (n : node) : M unit :=
  fun w =>
    match node_at w (removelast t) with
    | Some Dir => (Ok tt, set_node t n w)
    | Some (File _) => (Raise NotADirectoryError, w)
    | None => (Raise FileNotFoundError, w)
    end.

(** [os.mkdir(p)] *)
Definition os_mkdir (p : ppath) : M unit :=
  fun w =>
    match resolve w p with
    | Raise e => (Raise e, w)
    | Ok t =>
        match node_at w t with
        | Some _ => (Raise FileExistsError, w)
        | None => create_at t Dir w
        end
    end.

(** What [Path.mkdir] does with an [OSError] other than a missing parent
    when [exist_ok] is set: fine if the path is a directory. *)
Definition exist_ok (p : ppath) (e : exn) : M unit :=
  let! d := is_dir p in if d then ret tt else raise e.

(** [Path.mkdir(parents=True, exist_ok=True)] on the first [n] segments of
    [p]: try [os.mkdir]; when the parent is missing, make the parent the same
    way and try once more. *)
Fixpoint mkdir_parents (n : nat) (p : ppath) : M unit :=
  fun w =>
    let q := ancestor n p in
    match os_mkdir q w with
    | (Ok _, w') => (Ok tt, w')
    | (Raise FileNotFoundError, _) =>
        match n with
        | O => (Raise FileNotFoundError, w)
        | S n' =>
            match mkdir_parents n' p w with
            | (Ok _, w1) =>
                match os_mkdir q w1 with
                | (Ok _, w2) => (Ok tt, w2)
                | (Raise FileNotFoundError, _) => (Raise FileNotFoundError, w1)
                | (Raise e, _) => exist_ok q e w1
                end
            | (Raise e, w1) => (Raise e, w1)
            end
        end
    | (Raise e, _) => exist_ok q e w
    end.

(** [p.mkdir(parents=True, exist_ok=True)] *)
Definition mkdir (p : ppath) : M unit := mkdir_parents (length (segs p)) p.

(** [p.write_text(data)] *)
Definition write_text (p : ppath) (data : string) : M unit :=
  fun w =>
    match resolve w p with
    | Raise e => (Raise e, w)
    | Ok t =>
        match node_at w t with
        | Some Dir => (Raise IsADirectoryError, w)
        | Some (File _) => (Ok tt, set_node t (File data) w)
        | None => create_at t (File data) w
        end
    end.


(** [p.unlink()] *)
Definition unlink (p : ppath) : M unit :=
  fun w =>
    match resolve w p with
    | Raise e => (Raise e, w)
    | Ok t =>
        match node_at w t with
        | Some (File _) => (Ok tt, del_node t w)
        | Some Dir => (Raise IsADirectoryError, w)
        | None => (Raise FileNotFoundError, w)
        end
    end.

End Fs.

(** ** [apply_changes.py]: [apply_changes] and [generate_diff] *)

Module Mutator.
Import Py Fs.
Local Open Scope fs_scope.

(** One line of the summary; the script renders each as a line of text. *)
Inductive summary_line : Type :=
  | Deleted (path : value)
  | SkipDelete (path : value)
  | Modified (path : value)
  | Created (path : value)
  | UnknownAction (action path : value).

(** [content + "\n"] *)
Definition add_newline (content : value) : result string :=
  match content with
  | JStr s => Ok (s +:+ Str.nl)
  | _ => Raise TypeError
  end.

(** [action == s] *)
Definition is_str (s : string) (action : value) : bool :=
  match action with
  | JStr a => String.eqb a s
  | _ => false
  end.

(** The body of the loop of [apply_changes]. *)
Definition apply_change (repo_root : ppath) (change : value) : M summary_line :=
  let! path := lift (getitem change "path") in
  let! action := lift (get change "action" (JStr "modify")) in
  let! content := lift (get change "content" (JStr EmptyString)) in
  let! file_path := lift (join_value repo_root path) in
  if is_str "delete" action then
    let! found := exists_ file_path in
    if found then
      let! _ := unlink file_path in ret (Deleted path)
    else ret (SkipDelete path)
  else if is_str "create" action || is_str "modify" action then
    let! _ := mkdir (parent file_path) in
    let! existed := exists_ file_path in
    let! data := lift (add_newline content) in
    let! _ := write_text file_path data in
    ret (if existed then Modified path else Created path)
  else ret (UnknownAction action path).

Fixpoint apply_loop (repo_root : ppath) (changes : list value)
    (summary_lines : list summary_line) : M (list summary_line) :=
  match changes with
  | [] => ret summary_lines
  | change :: rest =>
      let! line := apply_change repo_root change in
      apply_loop repo_root rest (summary_lines ++ [line])
  end.

(** [for change in changes]: the scripts hand over a list; a [str] or a
    [dict] would be iterated too, and its first item (a [str]) refuses the
    index [path], as does anything that cannot be iterated. *)
Definition items (changes : value) : result (list value) :=
  match changes with
  | JArr l => Ok l
  | JStr EmptyString => Ok []
  | JObj [] => Ok []
  | _ => Raise TypeError
  end.

Definition apply_changes (changes : value) (repo_path : string)
    : M (list summary_line) :=
  let repo_root := of_string repo_path in
  let! l := lift (items changes) in
  apply_loop repo_root l [].





End Mutator.

(** ** [run_hal9000.py] / [execute_plan.py]: [run_tests] *)

Module Validator.

(** How [subprocess.run(..., capture_output=True, timeout=300)] ends: the
    process exits, the timeout expires (the exception carries what was
    captured until then), or the call fails otherwise. *)
Inductive proc : Type :=
  | Completed (returncode : Z) (stdout stderr : string)
  | TimeoutExpired (stdout stderr : string)
  | Failed (message : string).

Definition timeout_message : string := "Test command timed out after 5 minutes".

Definition run_tests (p : proc) : bool * string :=
  match p with
  | Completed returncode stdout stderr =>
      let output := stdout +:+ Str.nl +:+ stderr in
      let success := (returncode =? 0)%Z in
      (success, Str.strip output)
  | TimeoutExpired _ _ => (false, timeout_message)
  | Failed message => (false, "Error running tests: " +:+ message)
  end.

End Validator.

(** ** [run_hal9000.py] / [execute_plan.py]: the retry loop of [main]

    The two scripts run the same loop; [execute_plan.py] only builds another
    prompt and adds one key to the saved record. *)

Module Orchestrator.
Import Py Fs Mutator Validator.

(** [changes_summary]: the first 1000 characters of the response, or the
    summary [apply_changes] returned. *)
Inductive summary : Type :=
  | ResponseHead (text : string)
  | Applied (lines : list summary_line).

(** [previous_attempt] *)
Record feedback : Type := mkFeedback {
  test_output : string;
  changes_summary : summary
}.

(** What the loop does to the outside, in order. *)
Inductive event : Type :=
  | Generate (attempt : nat)       (* [call_llm] *)
  | Apply (attempt : nat)          (* [apply_changes] *)
  | Validate (attempt : nat)       (* [run_tests] *)
  | Reset (attempt : nat).         (* [git checkout .] *)

(** How [main] ends: the record it saves and exit status 0, the failure
    record and exit status 1, or an exception nobody caught. *)
Inductive outcome : Type :=
  | Succeeded (attempt : nat) (changes explanation : value) (test_output : string)
  | Exhausted (attempts : Z) (last_test_output : string)
  | Uncaught (e : exn).

Record state : Type := mkState {
  previous_attempt : option feedback;
  workspace : world;
  trace : list event
}.

(** How one pass through the loop body ends. *)
Inductive flow : Type :=
  | Continue (st : state)
  | Break (st : state) (o : outcome)
  | Propagate (st : state) (e : exn).

Definition no_changes_message : string := "Model did not provide any file changes".

Section Loop.
(** The text generation call, by attempt and feedback. *)
Variable call_llm : nat -> option feedback -> result string.
(** The test command, by attempt, on the workspace it finds. *)
Variable run_command : nat -> world -> proc * world.
(** [git checkout .] *)
Variable git_checkout : world -> world.
Variable repo_path : string.
Variable max_retries : Z.

Definition log (ev : event) (st : state) : state :=
  mkState (previous_attempt st) (workspace st) (trace st ++ [ev]).

Definition attempt_body (attempt : nat) (st : state) : flow :=
  let st := log (Generate attempt) st in
  match call_llm attempt (previous_attempt st) with
  | Raise e => Propagate st e
  | Ok response_text =>
      let parsed := Parser.parse_model_response response_text in
      match getitem parsed "changes" with
      | Raise e => Propagate st e
      | Ok changes =>
          if negb (truthy changes) then
            Continue (mkState
              (Some (mkFeedback no_changes_message
                                (ResponseHead (Str.take 1000 response_text))))
              (workspace st) (trace st))
          else
            let st := log (Apply attempt) st in
            match apply_changes changes repo_path (workspace st) with
            | (Raise e, w) => Propagate (mkState (previous_attempt st) w (trace st)) e
            | (Ok changes_summary, w) =>
                let st := log (Validate attempt)
                              (mkState (previous_attempt st) w (trace st)) in
                let '(p, w) := run_command attempt w in
                let '(test_success, test_output) := run_tests p in
                if test_success then
                  match get parsed "explanation" (JStr EmptyString) with
                  | Raise e => Propagate st e
                  | Ok explanation =>
                      Break (mkState (previous_attempt st) w (trace st))
                            (Succeeded attempt changes explanation test_output)
                  end
                else
                  let fb := mkFeedback test_output (Applied changes_summary) in
                  if (Z.of_nat attempt <? max_retries)%Z then
                    Continue (mkState (Some fb) (git_checkout w)
                                      (trace st ++ [Reset attempt]))
                  else Continue (mkState (Some fb) w (trace st))
            end
      end
  end.

(** After the loop, when no attempt succeeded. *)
Definition exhausted (st : state) : outcome :=
  Exhausted max_retries
    match previous_attempt st with
    | Some fb => test_output fb
    | None => "Unknown error"
    end.

(** [for attempt in range(1, max_retries + 1)] *)
Fixpoint loop (attempts : list nat) (st : state) : state * outcome :=
  match attempts with
  | [] => (st, exhausted st)
  | attempt :: rest =>
      match attempt_body attempt st with
      | Continue st' => loop rest st'
      | Break st' o => (st', o)
      | Propagate st' e => (st', Uncaught e)
      end
  end.

Definition main (w : world) : state * outcome :=
  loop (seq 1 (Z.to_nat max_retries)) (mkState None w []).

End Loop.



End Orchestrator.

(** * The vocabulary of the properties

    What the statements below talk about, besides the code: tests on text,
    the shapes of the responses they range over, where an edit lands, and
    what may differ between two states of the workspace. *)

Module Text.






End Text.

Module Shapes.
Import Parser.




End Shapes.

Module MutatorDefs.
Import Py Fs Mutator.

(** The edit [d] with the defaults [apply_changes] reads for a missing
    [action] and a missing [content] written in. *)
Definition with_defaults (d : dict) : dict :=
  let d := if dict_has "action" d then d else dict_set "action" (JStr "modify") d in
  if dict_has "content" d then d else dict_set "content" (JStr EmptyString) d.

(** The path [apply_changes] and [generate_diff] work on for the edit
    path [p]. *)
Definition file_path (repo_root : ppath) (p : string) : ppath :=
  joinpath repo_root (of_string p).

End MutatorDefs.

Module SafetyDefs.
Import Py Fs Mutator MutatorDefs.



(** The root directory is there: every leading part of its path names a
    directory. *)
Definition root_exists (w : world) (repo_root : ppath) : Prop :=
  forall n, exists t, resolve w (ancestor n repo_root) = Ok t /\ node_at w t = Some Dir.

End SafetyDefs.

Module DiffDefs.
Import Py Fs Mutator MutatorDefs Parser.


End DiffDefs.

Module OrchestratorDefs.
Import Py Fs Mutator Validator Orchestrator.




End OrchestratorDefs.

(** * Sample inputs *)

Module LoopSamples.
Import Py Fs Mutator Validator Orchestrator.

(** A workspace: [/repo] with a directory [src] and a file [a.txt]. *)
Definition w0 : world :=
  {| cwd := ["work"];
     tree := <[["repo"; "a.txt"] := File ("old" +:+ Str.nl)]>
             (<[["repo"; "src"] := Dir]> (<[["repo"] := Dir]> ∅)) |}.

(** A response whose only section names the directory [src] as the file. *)
Definition resp_dir : string := "### File: `src`
```
x
```".

Definition resp_good : string := "### File: `a.txt`
### Action: modify
```
new
```".

Definition resp_none : string := "I could not find anything to change.".

Definition llm_dir_then_good (attempt : nat) (_ : option feedback) : result string :=
  if (attempt =? 1)%nat then Ok resp_dir else Ok resp_good.
Definition llm_none_then_good (attempt : nat) (_ : option feedback) : result string :=
  if (attempt =? 1)%nat then Ok resp_none else Ok resp_good.
Definition llm_good (_ : nat) (_ : option feedback) : result string := Ok resp_good.

Definition tests_pass (_ : nat) (w : world) : proc * world :=
  (Completed 0 "ok" EmptyString, w).
Definition tests_time_out (_ : nat) (w : world) : proc * world :=
  (TimeoutExpired "collected 3 items" EmptyString, w).
Definition tests_fail_with_timeout_text (_ : nat) (w : world) : proc * world :=
  (Completed 1 timeout_message EmptyString, w).

(** A reset that forgets nothing; enough where only the trace matters. *)
Definition no_reset (w : world) : world := w.

End LoopSamples.

Module PathSamples.
Import Py Fs Mutator Parser.


(** [parsed["changes"]] *)
Definition changes_of (response_text : string) : value :=
  match getitem (parse_model_response response_text) "changes" with
  | Ok changes => changes
  | Raise _ => JNull
  end.
End PathSamples.

Module JsonSamples.
Import Py Fs Mutator Parser.
Definition q : string := String Chars.dquote EmptyString.

(** A structured block whose only edit has nothing but a path:
    an object with the key changes and the list of one object with the key
    path and the value b.txt. *)
Definition resp_json_path_only : string :=
  "```json
{" +:+ q +:+ "changes" +:+ q +:+ ": [{" +:+ q +:+ "path" +:+ q +:+ ": "
   +:+ q +:+ "b.txt" +:+ q +:+ "}]}
```".
End JsonSamples.

Module ParserSamples.
Import Py Fs Mutator Parser Shapes JsonSamples.






End ParserSamples.

(** * Properties *)

Module TextFacts.
Import Text Re.




















End TextFacts.

Module RunFacts.
Import Text TextFacts Re Parser.

(** Steps of a match along the branch the matcher tries first. *)
Section Steps.
Context {R : Type}.
Implicit Types (k : string -> caps -> option R) (c : caps) (x : R).








End Steps.
End RunFacts.

Module SectionFacts.
Import Text TextFacts Re Parser Shapes RunFacts.








End SectionFacts.

Module SectionMatch.
Import Text TextFacts Re Parser Shapes RunFacts SectionFacts.









End SectionMatch.

Module JsonBranchFacts.
Import Text TextFacts Re Parser Shapes RunFacts SectionFacts SectionMatch.













End JsonBranchFacts.

Module MutatorFacts.
Import Py Fs Mutator MutatorDefs.
Local Open Scope fs_scope.

Lemma dict_get_set_eq k v d : dict_get k (dict_set k v d) = Some v.
Proof.
  induction d as [|[k' v'] d IH]; cbn.
  - rewrite String.eqb_refl. reflexivity.
  - destruct (String.eqb k' k) eqn:E; cbn; rewrite E; auto.
Qed.

Lemma dict_get_set_ne k k' v d : k <> k' -> dict_get k' (dict_set k v d) = dict_get k' d.
Proof.
  intros Hne. induction d as [|[k0 v0] d IH]; cbn.
  - destruct (String.eqb k k') eqn:E; [apply String.eqb_eq in E; contradiction|reflexivity].
  - destruct (String.eqb k0 k) eqn:E; cbn.
    + apply String.eqb_eq in E. subst k0.
      destruct (String.eqb k k') eqn:E'; [apply String.eqb_eq in E'; contradiction|reflexivity].
    + destruct (String.eqb k0 k'); auto.
Qed.

Lemma dict_get_with_defaults_action d :
  dict_get "action" (with_defaults d)
  = Some (dict_get_default "action" (JStr "modify") d).
Proof.
  unfold with_defaults, dict_has, dict_get_default.
  destruct (dict_get "action" d) eqn:Ha.
  - destruct (dict_get "content" d) eqn:Hc; [exact Ha|].
    rewrite dict_get_set_ne by discriminate. exact Ha.
  - rewrite (dict_get_set_ne "action" "content") by discriminate.
    destruct (dict_get "content" d) eqn:Hc.
    + apply dict_get_set_eq.
    + rewrite dict_get_set_ne by discriminate. apply dict_get_set_eq.
Qed.

Lemma dict_get_with_defaults_content d :
  dict_get "content" (with_defaults d)
  = Some (dict_get_default "content" (JStr EmptyString) d).
Proof.
  unfold with_defaults, dict_has, dict_get_default.
  destruct (dict_get "action" d) eqn:Ha.
  - destruct (dict_get "content" d) eqn:Hc; [exact Hc|]. apply dict_get_set_eq.
  - rewrite (dict_get_set_ne "action" "content") by discriminate.
    destruct (dict_get "content" d) eqn:Hc.
    + rewrite dict_get_set_ne by discriminate. exact Hc.
    + apply dict_get_set_eq.
Qed.

Lemma dict_get_with_defaults_path d :
  dict_get "path" (with_defaults d) = dict_get "path" d.
Proof.
  unfold with_defaults, dict_has.
  destruct (dict_get "action" d) eqn:Ha.
  - destruct (dict_get "content" d) eqn:Hc; [reflexivity|].
    rewrite dict_get_set_ne by discriminate. reflexivity.
  - rewrite (dict_get_set_ne "action" "content") by discriminate.
    destruct (dict_get "content" d) eqn:Hc.
    + rewrite dict_get_set_ne by discriminate. reflexivity.
    + rewrite !dict_get_set_ne by discriminate. reflexivity.
Qed.

Lemma default_action_with_defaults d :
  dict_get_default "action" (JStr "modify") (with_defaults d)
  = dict_get_default "action" (JStr "modify") d.
Proof.
  unfold dict_get_default at 1. rewrite dict_get_with_defaults_action. reflexivity.
Qed.

Lemma default_content_with_defaults d :
  dict_get_default "content" (JStr EmptyString) (with_defaults d)
  = dict_get_default "content" (JStr EmptyString) d.
Proof.
  unfold dict_get_default at 1. rewrite dict_get_with_defaults_content. reflexivity.
Qed.

Lemma apply_change_defaults repo_root d w :
  apply_change repo_root (JObj d) w = apply_change repo_root (JObj (with_defaults d)) w.
Proof.
  unfold apply_change, bind, lift, getitem, get.
  rewrite dict_get_with_defaults_path.
  rewrite default_action_with_defaults, default_content_with_defaults.
  reflexivity.
Qed.
End MutatorFacts.

Module SafetyFacts.
Import Py Fs Mutator MutatorDefs SafetyDefs.



(** A path that resolves keeps resolving to the same place as long as the
    directories stay. *)
Lemma walk_from_kept w w' l :
  (forall t, node_at w t = Some Dir -> node_at w' t = Some Dir) ->
  forall at_ t, walk_from w at_ l = Ok t -> walk_from w' at_ l = Ok t.
Proof.
  intros D. induction l as [|seg l IH]; intros at_ t; cbn [walk_from]; [auto|].
  destruct (String.eqb seg "..").
  - destruct (node_at w at_) as [[c|]|] eqn:E; try discriminate.
    rewrite (D at_ E). apply IH.
  - apply IH.
Qed.


Lemma node_at_set_eq t n w : t <> [] -> node_at (set_node t n w) t = Some n.
Proof.
  destruct t; [congruence|]. intros _. cbn. apply lookup_insert_eq.
Qed.

Lemma node_at_set_ne t t' n w : t <> t' -> node_at (set_node t n w) t' = node_at w t'.
Proof.
  intros Hne. destruct t'; [reflexivity|]. cbn. apply lookup_insert_ne. exact Hne.
Qed.












Lemma ancestor_all p : ancestor (length (segs p)) p = p.
Proof. destruct p as [a s]. unfold ancestor. cbn. rewrite firstn_all. reflexivity. Qed.

Lemma root_resolves w repo_root :
  root_exists w repo_root ->
  exists r, resolve w repo_root = Ok r /\ node_at w r = Some Dir.
Proof. intros H. specialize (H (length (segs repo_root))). rewrite ancestor_all in H. exact H. Qed.



End SafetyFacts.

Module WriteFacts.
Import Py Fs Mutator MutatorDefs MutatorFacts SafetyDefs SafetyFacts Parser.

(** After a write that went through, the path holds a file with the data. *)
Lemma write_text_ok p data w u w' :
  write_text p data w = (Ok u, w') -> stat w' p = Ok (File data).
Proof.
  unfold write_text.
  destruct (resolve w p) as [t|e] eqn:Hr; [|discriminate].
  assert (node_at w t <> Some Dir -> w' = set_node t (File data) w ->
          stat w' p = Ok (File data)) as Hset.
  { intros Hn ->. unfold stat.
    assert (t <> []) as Hne by (intros ->; apply Hn; reflexivity).
    assert (resolve (set_node t (File data) w) p = Ok t) as ->.
    { unfold resolve in *. cbn [cwd set_node]. revert Hr. apply walk_from_kept.
      intros t' Hd. rewrite node_at_set_ne; [exact Hd|]. intros ->. contradiction. }
    rewrite node_at_set_eq by exact Hne. reflexivity. }
  destruct (node_at w t) as [[c|]|] eqn:E.
  - intros [= Hu <-]. apply Hset; [discriminate|reflexivity].
  - discriminate.
  - unfold create_at. destruct (node_at w (removelast t)) as [[]|]; try discriminate.
    intros [= Hu <-]. apply Hset; [discriminate|reflexivity].
Qed.

(** What a create or modify edit leaves behind when [apply_changes] gets
    through it: the file holds the content and one line feed. *)
Lemma apply_change_writes repo_root p a c w line w' :
  a = "create" \/ a = "modify" ->
  apply_change repo_root (edit_value (mkEdit p a c)) w = (Ok line, w') ->
  stat w' (file_path repo_root p) = Ok (File (c +:+ Str.nl)) /\
  (line = Created (JStr p) \/ line = Modified (JStr p)).
Proof.
  intros Ha. unfold apply_change, bind, lift, edit_value, getitem, get, join_value.
  cbn [dict_get dict_get_default String.eqb Ascii.eqb Bool.eqb path action content].
  cbn [is_str].
  assert (String.eqb a "delete" = false) as ->.
  { destruct Ha as [-> | ->]; reflexivity. }
  assert (String.eqb a "create" || String.eqb a "modify" = true) as ->.
  { destruct Ha as [-> | ->]; reflexivity. }
  destruct (mkdir _ w) as [[u|e] w1]; [|discriminate].
  unfold exists_, add_newline.
  destruct (write_text (joinpath repo_root (of_string p)) (c +:+ Str.nl) w1)
    as [[u'|e'] w2] eqn:Hw; [|discriminate].
  apply write_text_ok in Hw.
  unfold ret. intros [= <- <-].
  split; [exact Hw|].
  destruct (stat w1 _); auto.
Qed.

End WriteFacts.

Module OrchestratorFacts.
Import Py Fs Mutator Validator Orchestrator OrchestratorDefs.



Section Loop.
Variable call_llm : nat -> option feedback -> result string.
Variable run_command : nat -> world -> proc * world.
Variable git_checkout : world -> world.
Variable repo_path : string.
Variable max_retries : Z.

#[local] Abbreviation body := (attempt_body call_llm run_command git_checkout repo_path max_retries).
#[local] Abbreviation run_loop := (loop call_llm run_command git_checkout repo_path max_retries).


End Loop.
End OrchestratorFacts.

Module DedupClaims.
Import Py Fs Mutator MutatorDefs MutatorFacts WriteFacts Parser.
Import Text TextFacts Re Shapes RunFacts SectionFacts SectionMatch JsonBranchFacts.
Import LoopSamples PathSamples JsonSamples ParserSamples.

(** *** C4 *)





End DedupClaims.

Module FormatClaims.
Import Py Fs Mutator MutatorDefs MutatorFacts WriteFacts Parser.
Import Text TextFacts Re Shapes RunFacts SectionFacts SectionMatch JsonBranchFacts.
Import LoopSamples PathSamples JsonSamples ParserSamples DedupClaims.

(** The response the script parses when run on its own: two sections, the
    first creating [src/utils.py], the second modifying [src/main.py]. *)
Example script_self_test :
  parse_markdown
    ("
## Explanation

I've added a new utility function and fixed a bug in the main module.

## Changes

### File: `src/utils.py`
### Action: create
```python
def helper():
    return " +:+ q +:+ "hello" +:+ q +:+ "
```

### File: `src/main.py`
### Action: modify
```python
from utils import helper

def main():
    print(helper())
```
")
  = ("I've added a new utility function and fixed a bug in the main module.",
     [mkEdit "src/utils.py" "create"
        ("def helper():
    return " +:+ q +:+ "hello" +:+ q);
      mkEdit "src/main.py" "modify" "from utils import helper

def main():
    print(helper())"]).
Proof. vm_compute. reflexivity. Qed.

(** *** C3 *)





(** *** C2 *)





End FormatClaims.

Module SafetyClaims.
Import Py Fs Mutator MutatorDefs MutatorFacts SafetyDefs SafetyFacts WriteFacts Parser.
Import LoopSamples PathSamples.








End SafetyClaims.

Module DiffClaims.
Import Py Fs Mutator MutatorDefs MutatorFacts SafetyDefs SafetyFacts WriteFacts Parser.
Import LoopSamples PathSamples DiffDefs.





End DiffClaims.

Module DefaultsClaims.
Import Py Fs Mutator MutatorDefs MutatorFacts SafetyDefs SafetyFacts WriteFacts Parser.
Import LoopSamples PathSamples JsonSamples DiffDefs.

(** C10: [apply_changes] takes an edit that lacks [action] or [content] as
    if the defaults were written in it: modify and the empty string.  An
    edit with nothing but a path is therefore applied as a modify: when the
    write goes through, the file holds a single line feed and the summary
    says created or modified. *)
Theorem missing_fields_default (repo_root : ppath) (d : dict) (p : string) (w : world) :
  apply_change repo_root (JObj d) w = apply_change repo_root (JObj (with_defaults d)) w /\
  with_defaults [("path", JStr p)] =
    [("path", JStr p); ("action", JStr "modify"); ("content", JStr EmptyString)] /\
  (forall line w',
     apply_change repo_root (JObj [("path", JStr p)]) w = (Ok line, w') ->
     stat w' (file_path repo_root p) = Ok (File Str.nl) /\
     (line = Created (JStr p) \/ line = Modified (JStr p))).
Proof.
  split; [apply apply_change_defaults|]. split; [reflexivity|].
  intros line w' H. rewrite apply_change_defaults in H.
  change (JObj (with_defaults [("path", JStr p)]))
    with (edit_value (mkEdit p "modify" EmptyString)) in H.
  apply apply_change_writes in H; [|right; reflexivity].
  exact H.
Qed.

Lemma missing_fields_default_witness :
  changes_of resp_json_path_only = JArr [JObj [("path", JStr "b.txt")]] /\
  fst (apply_changes (changes_of resp_json_path_only) "/repo" w0)
    = Ok [Created (JStr "b.txt")] /\
  stat (snd (apply_change (of_string "/repo") (JObj [("path", JStr "b.txt")]) w0))
       (of_string "/repo/b.txt") = Ok (File Str.nl).
Proof.
  split; [vm_compute; reflexivity|]. split; [vm_compute; reflexivity|].
  destruct (apply_change (of_string "/repo") (JObj [("path", JStr "b.txt")]) w0)
    as [[line|e] w'] eqn:E; [|vm_compute in E; discriminate E].
  destruct (missing_fields_default (of_string "/repo") [] "b.txt" w0) as (_ & _ & H).
  destruct (H line w' E) as [Hn _]. exact Hn.
Defined.
End DefaultsClaims.

Module ValidatorClaims.
Import Py Fs Mutator Validator Orchestrator LoopSamples.

(** C6, as stated, fails: [run_tests] returns the same pair for exit codes
    1 and 2, so the exit code is not in what it returns; and on a timeout it
    returns a fixed message, whatever had been captured. *)
Lemma run_tests_drops_exit_code_and_capture :
  run_tests (Completed 1 "boom" EmptyString) = run_tests (Completed 2 "boom" EmptyString) /\
  run_tests (TimeoutExpired "collected 3 items" EmptyString)
  = (false, "Test command timed out after 5 minutes") /\
  run_tests (TimeoutExpired "collected 3 items" EmptyString)
  = run_tests (TimeoutExpired EmptyString EmptyString).
Proof. repeat split. Qed.

(** C6 (amended): [run_tests] answers with a flag and a text only.  A run
    that exits passes exactly when the exit code is 0, and the text is the
    standard output, a line feed and the standard error, stripped; a nonzero
    exit code itself is not kept.  A timeout fails with a fixed message and
    drops what was captured.  The loop sees only the flag and the text, so it
    treats a timeout like a failing exit code with that message. *)
Theorem run_tests_classification (returncode : Z) (stdout stderr : string) :
  (fst (run_tests (Completed returncode stdout stderr)) = true <-> returncode = 0%Z) /\
  snd (run_tests (Completed returncode stdout stderr))
    = Str.strip (stdout +:+ Str.nl +:+ stderr) /\
  (forall rc', returncode <> 0%Z -> rc' <> 0%Z ->
     run_tests (Completed returncode stdout stderr) = run_tests (Completed rc' stdout stderr)) /\
  run_tests (TimeoutExpired stdout stderr) = (false, timeout_message) /\
  run_tests (TimeoutExpired stdout stderr)
    = run_tests (Completed 1 timeout_message EmptyString) /\
  (forall call_llm git_checkout repo_path max_retries w,
     main call_llm (fun _ w => (TimeoutExpired stdout stderr, w))
          git_checkout repo_path max_retries w
     = main call_llm (fun _ w => (Completed 1 timeout_message EmptyString, w))
            git_checkout repo_path max_retries w).
Proof.
  split.
  { cbn. split; intros H; [apply Z.eqb_eq in H|apply Z.eqb_eq]; exact H. }
  split; [reflexivity|]. split.
  { intros rc' H1 H2. cbn. apply Z.eqb_neq in H1, H2. rewrite H1, H2. reflexivity. }
  split; [reflexivity|]. split; [reflexivity|].
  intros call_llm git_checkout repo_path max_retries w. unfold main.
  generalize (mkState None w []). generalize (seq 1 (Z.to_nat max_retries)).
  induction l as [|a l IH]; intros st; [reflexivity|].
  cbn [loop].
  assert (attempt_body call_llm (fun _ w => (TimeoutExpired stdout stderr, w))
            git_checkout repo_path max_retries a st
          = attempt_body call_llm (fun _ w => (Completed 1 timeout_message EmptyString, w))
              git_checkout repo_path max_retries a st) as ->.
  { unfold attempt_body. reflexivity. }
  destruct (attempt_body _ _ _ _ _ a st); auto.
Qed.

Lemma run_tests_classification_witness :
  (fst (run_tests (Completed 0 "ok" EmptyString)) = true <-> 0%Z = 0%Z) /\
  run_tests (TimeoutExpired "collected 3 items" EmptyString) = (false, timeout_message) /\
  main llm_good tests_time_out no_reset "/repo" 2 w0
  = main llm_good tests_fail_with_timeout_text no_reset "/repo" 2 w0.
Proof.
  pose proof (run_tests_classification 0 "ok" EmptyString) as (H1 & _).
  pose proof (run_tests_classification 1 "collected 3 items" EmptyString)
    as (_ & _ & _ & H4 & _ & H6).
  split; [exact H1|]. split; [exact H4|].
  exact (H6 llm_good no_reset "/repo" 2%Z w0).
Defined.
End ValidatorClaims.

Module OrchestratorClaims.
Import Py Fs Mutator Validator Orchestrator OrchestratorDefs OrchestratorFacts LoopSamples.


Section Loop.
Variable call_llm : nat -> option feedback -> result string.
Variable run_command : nat -> world -> proc * world.
Variable git_checkout : world -> world.
Variable repo_path : string.
Variable max_retries : Z.


(** C7 (amended): when [apply_changes] raises in attempt [a], the
    exception leaves the loop: the run ends there with the exception,
    after the generation call and the failed apply, with no validation, no
    reset and no further attempt, whatever attempts were left. *)
Theorem mutator_error_propagates (a : nat) (rest : list nat) (st : state)
    (text : string) (changes : value) (e : exn) (w' : world) :
  call_llm a (previous_attempt st) = Ok text ->
  getitem (Parser.parse_model_response text) "changes" = Ok changes ->
  truthy changes = true ->
  apply_changes changes repo_path (workspace st) = (Raise e, w') ->
  loop call_llm run_command git_checkout repo_path max_retries (a :: rest) st
  = (mkState (previous_attempt st) w' (trace st ++ [Generate a; Apply a]),
     Uncaught e).
Proof.
  intros Hllm Hc Ht Happ. cbn [loop]. unfold attempt_body.
  cbn [log previous_attempt workspace trace]. rewrite Hllm, Hc, Ht. cbn [negb].
  rewrite Happ. rewrite <- app_assoc. reflexivity.
Qed.

(** C8: an attempt whose parse result has an empty list of changes only
    calls the generator: it records the no-change message and the head of
    the response as feedback, leaves the workspace as it found it (no
    apply, no validation, no reset) and the loop goes on with the attempts
    that are left. *)
Theorem empty_edits_skip_workspace (a : nat) (rest : list nat) (st : state)
    (text : string) :
  call_llm a (previous_attempt st) = Ok text ->
  getitem (Parser.parse_model_response text) "changes" = Ok (JArr []) ->
  let st' := mkState
               (Some (mkFeedback no_changes_message
                                 (ResponseHead (Str.take 1000 text))))
               (workspace st) (trace st ++ [Generate a]) in
  attempt_body call_llm run_command git_checkout repo_path max_retries a st
    = Continue st' /\
  loop call_llm run_command git_checkout repo_path max_retries (a :: rest) st
    = loop call_llm run_command git_checkout repo_path max_retries rest st'.
Proof.
  intros Hllm Hc st'.
  assert (attempt_body call_llm run_command git_checkout repo_path max_retries a st
          = Continue st') as Hb.
  { unfold attempt_body. cbn [log previous_attempt workspace trace].
    rewrite Hllm, Hc. reflexivity. }
  split; [exact Hb|]. cbn [loop]. rewrite Hb. reflexivity.
Qed.
End Loop.


(** C7, as stated, fails: the first of three attempts raises in the mutator
    and the second would have passed, yet the run ends at the first with the
    exception, without reset and without a second generation call. *)
Lemma mutator_error_not_retried :
  let r := main llm_dir_then_good tests_pass no_reset "/repo" 3 w0 in
  snd r = Uncaught IsADirectoryError /\
  trace (fst r) = [Generate 1; Apply 1].
Proof. vm_compute. split; reflexivity. Qed.

Lemma mutator_error_propagates_witness :
  loop llm_dir_then_good tests_pass no_reset "/repo" 3 [1; 2; 3] (mkState None w0 [])
  = (mkState None w0 [Generate 1; Apply 1], Uncaught IsADirectoryError).
Proof.
  refine (mutator_error_propagates llm_dir_then_good tests_pass no_reset "/repo" 3
           1 [2; 3] (mkState None w0 []) resp_dir _ IsADirectoryError w0 _ _ _ _);
    vm_compute; reflexivity.
Defined.

Lemma empty_edits_skip_workspace_witness :
  let st' := mkState
               (Some (mkFeedback no_changes_message (ResponseHead resp_none)))
               w0 [Generate 1] in
  attempt_body llm_none_then_good tests_pass no_reset "/repo" 3 1 (mkState None w0 [])
    = Continue st' /\
  loop llm_none_then_good tests_pass no_reset "/repo" 3 [1; 2; 3] (mkState None w0 [])
    = loop llm_none_then_good tests_pass no_reset "/repo" 3 [2; 3] st'.
Proof.
  refine (empty_edits_skip_workspace llm_none_then_good tests_pass no_reset "/repo" 3
           1 [2; 3] (mkState None w0 []) resp_none _ _); vm_compute; reflexivity.
Defined.

End OrchestratorClaims.
